(** * InstructorRequestFormComponent

    A shallow embedding of
    [src/web/app/pages-static/request-page/instructor-request-form/instructor-request-form.component.ts]:
    the form model, the submit and cancel handlers, and the subscriber that
    handles the answer of the account service. *)

From Stdlib Require Import List Bool Arith NArith String Ascii Lia.
Import ListNotations.

(** ** JavaScript strings *)

(** A JavaScript string is a sequence of UTF-16 code units. [length] on the
    list is the [length] property of the string. *)
Definition code_unit := N.
Definition jsstring := list code_unit.

(** An ASCII literal of the source, as a JavaScript string. *)
Definition js (s : string) : jsstring :=
  List.map N_of_ascii (list_ascii_of_string s).

(** ToBoolean on a string: only the empty string is falsy. *)
Definition truthy (s : jsstring) : bool :=
  match s with
  | [] => false
  | _ :: _ => true
  end.

(** ToBoolean on [string | undefined]. *)
Definition truthy_opt (s : option jsstring) : bool :=
  match s with
  | None => false
  | Some t => truthy t
  end.

(** [a !== ''] on strings. *)
Definition not_empty_string (s : jsstring) : bool := truthy s.

(** ECMAScript WhiteSpace and LineTerminator code points; all of them are in
    the basic plane, so the test is per code unit. *)
Definition is_white_space (u : code_unit) : bool :=
  ((u =? 0x9) || (u =? 0xA) || (u =? 0xB) || (u =? 0xC) || (u =? 0xD)
   || (u =? 0x20) || (u =? 0xA0) || (u =? 0x1680)
   || ((0x2000 <=? u) && (u <=? 0x200A))
   || (u =? 0x2028) || (u =? 0x2029) || (u =? 0x202F) || (u =? 0x205F)
   || (u =? 0x3000) || (u =? 0xFEFF))%N.

Fixpoint trimStart (s : jsstring) : jsstring :=
  match s with
  | [] => []
  | u :: t => if is_white_space u then trimStart t else s
  end.

Definition trimEnd (s : jsstring) : jsstring := rev (trimStart (rev s)).

(** [String.prototype.trim]. *)
Definition trim (s : jsstring) : jsstring := trimEnd (trimStart s).

(** ** Angular forms: validators, controls, the form group *)

(** The three validators the component uses. A pattern validator carries the
    [test] function of its regular expression. *)
Inductive ValidatorFn : Type :=
| required
| maxLength (n : nat)
| pattern (test : jsstring -> bool).

(** [has_error v s] is [true] when validator [v] reports an error on value
    [s]. [maxLength] and [pattern] accept the empty value; [required] is the
    one that rejects it. *)
Definition has_error (v : ValidatorFn) (s : jsstring) : bool :=
  match v with
  | required => negb (truthy s)
  | maxLength n => n <? List.length s
  | pattern test => truthy s && negb (test s)
  end.

Definition is_required (v : ValidatorFn) : bool :=
  match v with
  | required => true
  | _ => false
  end.

Module FormControl.

(** The controls of this form are created with [''] and written from text
    inputs only (the component never resets them), so a value is a string:
    this is what the non-null assertions [value!] of the source state. *)
Record t : Type := mk {
  value : jsstring;
  validators : list ValidatorFn;
  dirty : bool
}.

(** [control.invalid]: some validator reports an error on the value. *)
Definition invalid (f : t) : bool :=
  existsb (fun v => has_error v (value f)) (validators f).

Definition valid (f : t) : bool := negb (invalid f).

Definition hasValidator (f : t) (p : ValidatorFn -> bool) : bool :=
  existsb p (validators f).

Definition setValue (s : jsstring) (f : t) : t :=
  {| value := s; validators := validators f; dirty := dirty f |}.

Definition markAsDirty (f : t) : t :=
  {| value := value f; validators := validators f; dirty := true |}.

End FormControl.

Module FormGroup.

(** The controls of [arf], in the order of the object literal. *)
Record t : Type := mk {
  name : FormControl.t;
  institution : FormControl.t;
  country : FormControl.t;
  email : FormControl.t;
  comments : FormControl.t;
  recaptcha : FormControl.t
}.

(** [Object.values(arf.controls)]. *)
Definition controls (g : t) : list FormControl.t :=
  [name g; institution g; country g; email g; comments g; recaptcha g].

(** [arf.invalid]: the group has no validator of its own, so it is invalid
    exactly when one of its controls is. *)
Definition invalid (g : t) : bool :=
  existsb FormControl.invalid (controls g).

End FormGroup.

(** ** Records exchanged with the outside *)

Module AccountCreateRequest.

(** [instructorComments] is an optional property. [captchaResponse] is
    written from [this.captchaResponse!]; the assertion leaves no trace at
    run time, so the property holds whatever the field holds. *)
Record t : Type := mk {
  instructorEmail : jsstring;
  instructorName : jsstring;
  instructorInstitution : jsstring;
  captchaResponse : option jsstring;
  instructorComments : option jsstring
}.

Definition set_instructorComments (s : jsstring) (r : t) : t :=
  {| instructorEmail := instructorEmail r;
     instructorName := instructorName r;
     instructorInstitution := instructorInstitution r;
     captchaResponse := captchaResponse r;
     instructorComments := Some s |}.

End AccountCreateRequest.

Module InstructorRequestFormModel.

Record t : Type := mk {
  name : jsstring;
  institution : jsstring;
  country : jsstring;
  email : jsstring;
  comments : jsstring
}.

End InstructorRequestFormModel.

Module MessageOutput.
Record t : Type := mk { message : jsstring }.
End MessageOutput.

Module ErrorMessageOutput.
Record t : Type := mk { error : MessageOutput.t }.
End ErrorMessageOutput.

(** What the component does to the outside world. *)
Inductive Effect : Type :=
| createAccountRequest (requestData : AccountCreateRequest.t)
| requestSubmissionEvent_emit (ev : InstructorRequestFormModel.t)
| confirm_prompt (text : jsstring)
| router_navigate (commands : list jsstring).

(** ** The component state *)

Inductive CaptchaSize : Type := compact | normal.

Record Component : Type := mkComponent {
  captchaSiteKey : jsstring;
  isCaptchaSuccessful : bool;
  captchaResponse : option jsstring;
  size : CaptchaSize;
  lang : jsstring;
  arf : FormGroup.t;
  hasSubmitAttempt : bool;
  isLoading : bool;
  serverErrorMessage : jsstring
}.

(** The members [name], [institution], ... alias the controls of [arf]. *)
Definition name (this : Component) := FormGroup.name (arf this).
Definition institution (this : Component) := FormGroup.institution (arf this).
Definition country (this : Component) := FormGroup.country (arf this).
Definition email (this : Component) := FormGroup.email (arf this).
Definition comments (this : Component) := FormGroup.comments (arf this).

Definition with_hasSubmitAttempt (b : bool) (c : Component) : Component :=
  mkComponent (captchaSiteKey c) (isCaptchaSuccessful c) (captchaResponse c)
    (size c) (lang c) (arf c) b (isLoading c) (serverErrorMessage c).

Definition with_isLoading (b : bool) (c : Component) : Component :=
  mkComponent (captchaSiteKey c) (isCaptchaSuccessful c) (captchaResponse c)
    (size c) (lang c) (arf c) (hasSubmitAttempt c) b (serverErrorMessage c).

Definition with_serverErrorMessage (s : jsstring) (c : Component) : Component :=
  mkComponent (captchaSiteKey c) (isCaptchaSuccessful c) (captchaResponse c)
    (size c) (lang c) (arf c) (hasSubmitAttempt c) (isLoading c) s.

Definition with_captcha (ok : bool) (r : option jsstring) (c : Component)
  : Component :=
  mkComponent (captchaSiteKey c) ok r
    (size c) (lang c) (arf c) (hasSubmitAttempt c) (isLoading c)
    (serverErrorMessage c).

Definition with_arf (g : FormGroup.t) (c : Component) : Component :=
  mkComponent (captchaSiteKey c) (isCaptchaSuccessful c) (captchaResponse c)
    (size c) (lang c) g (hasSubmitAttempt c) (isLoading c)
    (serverErrorMessage c).

(** ** Methods run in a state monad that logs the outside calls *)

Definition M (A : Type) : Type := Component -> A * Component * list Effect.

Definition ret {A} (a : A) : M A := fun this => (a, this, []).

Definition bind {A B} (m : M A) (k : A -> M B) : M B :=
  fun this =>
    let '(a, this1, out1) := m this in
    let '(b, this2, out2) := k a this1 in
    (b, this2, out1 ++ out2).

Definition get_this : M Component := fun this => (this, this, []).

Definition assign (f : Component -> Component) : M unit :=
  fun this => (tt, f this, []).

Definition perform (e : Effect) : M unit := fun this => (tt, this, [e]).

Declare Scope method_scope.
Delimit Scope method_scope with method.
Notation "x <- m ;; k" := (bind m (fun x => k))
  (at level 61, m at next level, right associativity) : method_scope.
Notation "m ;; k" := (bind m (fun _ => k))
  (at level 61, right associativity) : method_scope.
Local Open Scope method_scope.

Definition result_of {A} (r : A * Component * list Effect) : A := fst (fst r).
Definition state_of {A} (r : A * Component * list Effect) : Component :=
  snd (fst r).
Definition effects_of {A} (r : A * Component * list Effect) : list Effect :=
  snd r.

(** ** The methods of the component *)

(** [checkIsFieldRequired]. *)
Definition checkIsFieldRequired (field : FormControl.t) : bool :=
  FormControl.hasValidator field is_required.

(** The getter [canSubmit]. *)
Definition canSubmit (this : Component) : bool := negb (isLoading this).

(** [getFieldValidationClasses]. *)
Definition getFieldValidationClasses (this : Component) (field : FormControl.t)
  : jsstring :=
  let str := js "" in
  let str :=
    if hasSubmitAttempt this then
      if FormControl.invalid field then js "is-invalid"
      else if not_empty_string (FormControl.value field) then js "is-valid"
      else str
    else str in
  str.

(** [handleCaptchaSuccess]. *)
Definition handleCaptchaSuccess (captchaResponse : jsstring) : M unit :=
  assign (with_captcha true (Some captchaResponse)).

(** The constants that the two callbacks of [subscribe] close over. *)
Module Subscriber.
Record t : Type := mk {
  name : jsstring;
  institution : jsstring;
  country : jsstring;
  email : jsstring;
  comments : jsstring
}.
End Subscriber.

(** The guard of [onSubmit]:
    [this.arf.invalid || (this.captchaSiteKey && !this.captchaResponse)]. *)
Definition submission_blocked (this : Component) : bool :=
  FormGroup.invalid (arf this)
  || (truthy (captchaSiteKey this) && negb (truthy_opt (captchaResponse this))).

(** [onSubmit], up to and including the call of the account service. The
    result is the subscriber handed to [subscribe], if the call was made. *)
Definition onSubmit : M (option Subscriber.t) :=
  assign (with_hasSubmitAttempt true) ;;
  assign (with_isLoading true) ;;
  assign (with_serverErrorMessage (js "")) ;;
  this <- get_this ;;
  if submission_blocked this then
    assign (with_isLoading false) ;;
    ret None
  else
    let name := trim (FormControl.value (name this)) in
    let email := trim (FormControl.value (email this)) in
    let comments := trim (FormControl.value (comments this)) in
    let country := trim (FormControl.value (country this)) in
    let institution := trim (FormControl.value (institution this)) in
    let combinedInstitution := institution ++ js ", " ++ country in
    let requestData :=
      {| AccountCreateRequest.instructorEmail := email;
         AccountCreateRequest.instructorName := name;
         AccountCreateRequest.instructorInstitution := combinedInstitution;
         AccountCreateRequest.captchaResponse :=
           if truthy (captchaSiteKey this) then captchaResponse this
           else Some (js "");
         AccountCreateRequest.instructorComments := None |} in
    let requestData :=
      if truthy comments
      then AccountCreateRequest.set_instructorComments comments requestData
      else requestData in
    perform (createAccountRequest requestData) ;;
    ret (Some {| Subscriber.name := name;
                 Subscriber.institution := institution;
                 Subscriber.country := country;
                 Subscriber.email := email;
                 Subscriber.comments := comments |}).

(** What the observable of the account service delivers to a subscriber. *)
Inductive Notification : Type :=
| next
| error (resp : ErrorMessageOutput.t)
| complete.

(** The [next] callback. *)
Definition subscriber_next (s : Subscriber.t) : M unit :=
  perform (requestSubmissionEvent_emit
             {| InstructorRequestFormModel.name := Subscriber.name s;
                InstructorRequestFormModel.institution := Subscriber.institution s;
                InstructorRequestFormModel.country := Subscriber.country s;
                InstructorRequestFormModel.email := Subscriber.email s;
                InstructorRequestFormModel.comments := Subscriber.comments s |}).

(** The [error] callback. *)
Definition subscriber_error (resp : ErrorMessageOutput.t) : M unit :=
  assign (with_serverErrorMessage
            (MessageOutput.message (ErrorMessageOutput.error resp))).

(** The callback given to [finalize]. *)
Definition finalize_callback : M unit := assign (with_isLoading false).

(** One notification through [pipe(finalize(...)).subscribe({next, error})]:
    the callback of [finalize] runs when the source terminates, after the
    subscriber has been told. *)
Definition notify (s : Subscriber.t) (n : Notification) : M unit :=
  match n with
  | next => subscriber_next s
  | error resp => subscriber_error resp ;; finalize_callback
  | complete => finalize_callback
  end.

Fixpoint notify_all (s : Subscriber.t) (ns : list Notification) : M unit :=
  match ns with
  | [] => ret tt
  | n :: rest => notify s n ;; notify_all s rest
  end.

(** Modelled from the spec: the account service is not part of the sources;
    its call is "create-account-request(...) -> success | error(message)". *)
Inductive Response : Type :=
| success
| failure (resp : ErrorMessageOutput.t).

(** Modelled from the spec: the observable of the account service is that
    of one HTTP call. A call that succeeds delivers one value and completes;
    one that fails delivers the error. *)
Definition notifications (r : Response) : list Notification :=
  match r with
  | success => [next; complete]
  | failure resp => [error resp]
  end.

(** The subscriber [s] receives the answer [r] of the backend. *)
Definition respond (s : Subscriber.t) (r : Response) : M unit :=
  notify_all s (notifications r).

(** The text of the dialog of [onCancel]. *)
Definition cancel_question : jsstring :=
  js "Are you sure you want to cancel? You will lose all unsaved changes.".

(** [onCancel]. [confirm] is the browser's dialog: it is given the text and
    answers whether the user confirmed. The dialog is logged when it opens. *)
Definition onCancel (confirm : jsstring -> bool) : M unit :=
  this <- get_this ;;
  let isFormDirty :=
    existsb FormControl.dirty (FormGroup.controls (arf this)) in
  if isFormDirty then
    perform (confirm_prompt cancel_question) ;;
    let confirmed := confirm cancel_question in
    if confirmed then perform (router_navigate [js "/web/front/home"])
    else ret tt
  else
    perform (router_navigate [js "/web/front/home"]).

(** ** Construction of the component *)

(** The constants of [FormValidator] that the form uses. A regular
    expression is represented by its [test] function. *)
Record FormValidatorT : Type := mkFormValidator {
  STUDENT_NAME_MAX_LENGTH : nat;
  INSTITUTION_NAME_MAX_LENGTH : nat;
  COUNTRY_NAME_MAX_LENGTH : nat;
  EMAIL_MAX_LENGTH : nat;
  NAME_REGEX : jsstring -> bool;
  EMAIL_REGEX : jsstring -> bool
}.

Record EnvironmentT : Type := mkEnvironment {
  environment_captchaSiteKey : jsstring
}.

Section Construction.

Variable FormValidator : FormValidatorT.
Variable environment : EnvironmentT.

(** [new FormControl('', validators)]. *)
Definition new_FormControl (vs : list ValidatorFn) : FormControl.t :=
  {| FormControl.value := js "";
     FormControl.validators := vs;
     FormControl.dirty := false |}.

Definition new_arf : FormGroup.t :=
  {| FormGroup.name :=
       new_FormControl
         [required;
          maxLength (STUDENT_NAME_MAX_LENGTH FormValidator);
          pattern (NAME_REGEX FormValidator)];
     FormGroup.institution :=
       new_FormControl
         [required;
          maxLength (INSTITUTION_NAME_MAX_LENGTH FormValidator);
          pattern (NAME_REGEX FormValidator)];
     FormGroup.country :=
       new_FormControl
         [required;
          maxLength (COUNTRY_NAME_MAX_LENGTH FormValidator);
          pattern (NAME_REGEX FormValidator)];
     FormGroup.email :=
       new_FormControl
         [required;
          pattern (EMAIL_REGEX FormValidator);
          maxLength (EMAIL_MAX_LENGTH FormValidator)];
     FormGroup.comments := new_FormControl [];
     FormGroup.recaptcha := new_FormControl [] |}.

(** The field initialisers of the class. *)
Definition new_Component : Component :=
  {| captchaSiteKey := environment_captchaSiteKey environment;
     isCaptchaSuccessful := false;
     captchaResponse := None;
     size := normal;
     lang := js "en";
     arf := new_arf;
     hasSubmitAttempt := false;
     isLoading := false;
     serverErrorMessage := js "" |}.

End Construction.

(** ** The page around the component *)

(** The component together with the backend calls that have not been answered
    yet and everything it has done so far. *)
Record Page : Type := mkPage {
  component : Component;
  in_flight : list Subscriber.t;
  trace : list Effect
}.

Inductive Event : Type :=
| ev_submit
| ev_input (g : FormGroup.t)
| ev_captcha (token : jsstring)
| ev_cancel (confirm : jsstring -> bool)
| ev_response (i : nat) (r : Response).

Fixpoint remove_nth {A} (i : nat) (l : list A) : list A :=
  match l, i with
  | [], _ => []
  | _ :: t, O => t
  | x :: t, S j => x :: remove_nth j t
  end.

Definition option_to_list {A} (o : option A) : list A :=
  match o with
  | Some a => [a]
  | None => []
  end.

(** Running a method of the component on the page. *)
Definition run_method {A} (m : M A) (p : Page) (sub : A -> list Subscriber.t)
  (keep : list Subscriber.t) : Page :=
  let '(a, c, out) := m (component p) in
  {| component := c; in_flight := sub a ++ keep; trace := trace p ++ out |}.

(** Modelled from the spec: the template of the component (its HTML is not
    part of the sources) lets the user submit only while [canSubmit] holds,
    "gated by a loading flag that disables re-submission". The other events
    are the user editing the form, solving the captcha, cancelling, and the
    backend answering the call with index [i]. *)
Definition page_step (p : Page) (e : Event) : option Page :=
  match e with
  | ev_submit =>
      if canSubmit (component p)
      then Some (run_method onSubmit p option_to_list (in_flight p))
      else None
  | ev_input g =>
      Some (run_method (assign (with_arf g)) p (fun _ => []) (in_flight p))
  | ev_captcha token =>
      Some (run_method (handleCaptchaSuccess token) p (fun _ => [])
              (in_flight p))
  | ev_cancel confirm =>
      Some (run_method (onCancel confirm) p (fun _ => []) (in_flight p))
  | ev_response i r =>
      match nth_error (in_flight p) i with
      | Some s =>
          Some (run_method (respond s r) p (fun _ => [])
                  (remove_nth i (in_flight p)))
      | None => None
      end
  end.

Fixpoint page_run (p : Page) (es : list Event) : option Page :=
  match es with
  | [] => Some p
  | e :: rest =>
      match page_step p e with
      | Some p' => page_run p' rest
      | None => None
      end
  end.

Definition new_Page (fv : FormValidatorT) (env : EnvironmentT) : Page :=
  {| component := new_Component fv env; in_flight := []; trace := [] |}.

Definition reachable (fv : FormValidatorT) (env : EnvironmentT) (p : Page)
  : Prop :=
  exists es, page_run (new_Page fv env) es = Some p.

(** The invariant of the page: whenever a call is in flight the flag is set,
    and there is at most one call in flight. *)
Definition page_inv (p : Page) : Prop :=
  (isLoading (component p) = false -> in_flight p = [])
  /\ List.length (in_flight p) <= 1.

(** ** Vocabulary of the properties *)

(** A captcha site key is configured. *)
Definition captcha_configured (this : Component) : Prop :=
  captchaSiteKey this <> [].

(** No captcha is configured, or a response token has been received. *)
Definition captcha_satisfied (this : Component) : Prop :=
  captchaSiteKey this = []
  \/ exists token, captchaResponse this = Some token /\ token <> [].

(** A valid submission: the form is valid and the captcha is satisfied. *)
Definition valid_submission (this : Component) : Prop :=
  FormGroup.invalid (arf this) = false /\ captcha_satisfied this.

(** The event that carries the trimmed values of the form. *)
Definition trimmed_form (this : Component) : InstructorRequestFormModel.t :=
  {| InstructorRequestFormModel.name := trim (FormControl.value (name this));
     InstructorRequestFormModel.institution :=
       trim (FormControl.value (institution this));
     InstructorRequestFormModel.country :=
       trim (FormControl.value (country this));
     InstructorRequestFormModel.email := trim (FormControl.value (email this));
     InstructorRequestFormModel.comments :=
       trim (FormControl.value (comments this)) |}.

Definition home_route : list jsstring := [js "/web/front/home"].

Definition is_createAccountRequest (e : Effect) : bool :=
  match e with
  | createAccountRequest _ => true
  | _ => false
  end.

Definition is_requestSubmissionEvent (e : Effect) : bool :=
  match e with
  | requestSubmissionEvent_emit _ => true
  | _ => false
  end.

Definition is_navigation (e : Effect) : bool :=
  match e with
  | router_navigate _ => true
  | _ => false
  end.

(** ** Sample data *)

(** Sample values for the constants of [FormValidator]: names exclude the
    characters | and %, addresses contain an at sign. *)
Definition sample_FormValidator : FormValidatorT :=
  {| STUDENT_NAME_MAX_LENGTH := 100;
     INSTITUTION_NAME_MAX_LENGTH := 128;
     COUNTRY_NAME_MAX_LENGTH := 40;
     EMAIL_MAX_LENGTH := 254;
     NAME_REGEX := fun s => negb (existsb (fun u => (u =? 124) || (u =? 37))%N s);
     EMAIL_REGEX := fun s => existsb (fun u => u =? 64)%N s |}.

Definition env_without_captcha : EnvironmentT :=
  {| environment_captchaSiteKey := js "" |}.

Definition env_with_captcha : EnvironmentT :=
  {| environment_captchaSiteKey := js "site-key" |}.

(** The form as filled in by a user, with blanks around some values. *)
Definition fill (g : FormGroup.t) : FormGroup.t :=
  {| FormGroup.name :=
       FormControl.markAsDirty
         (FormControl.setValue (js "  Ada Lovelace ") (FormGroup.name g));
     FormGroup.institution :=
       FormControl.markAsDirty
         (FormControl.setValue (js " Analytical Society")
            (FormGroup.institution g));
     FormGroup.country :=
       FormControl.markAsDirty
         (FormControl.setValue (js "United Kingdom  ") (FormGroup.country g));
     FormGroup.email :=
       FormControl.markAsDirty
         (FormControl.setValue (js "ada@example.org") (FormGroup.email g));
     FormGroup.comments :=
       FormControl.markAsDirty
         (FormControl.setValue (js " Please hurry ") (FormGroup.comments g));
     FormGroup.recaptcha := FormGroup.recaptcha g |}.

Definition filled_Component (env : EnvironmentT) : Component :=
  with_arf (fill (new_arf sample_FormValidator))
    (new_Component sample_FormValidator env).

Definition filled_with_token : Component :=
  with_captcha true (Some (js "token-123")) (filled_Component env_with_captcha).

Definition sample_error : ErrorMessageOutput.t :=
  {| ErrorMessageOutput.error :=
       {| MessageOutput.message := js "Invalid email address." |} |}.

Definition always_confirm : jsstring -> bool := fun _ => true.
Definition never_confirm : jsstring -> bool := fun _ => false.

Definition fresh_Component : Component :=
  new_Component sample_FormValidator env_with_captcha.

(** The page after the user has filled in the form and pressed submit, with
    no captcha configured: the call is in flight. *)
Definition submitted_Page : Page :=
  {| component := state_of (onSubmit (filled_Component env_without_captcha));
     in_flight :=
       option_to_list (result_of (onSubmit (filled_Component env_without_captcha)));
     trace := effects_of (onSubmit (filled_Component env_without_captcha)) |}.

(** The component after a first, blocked, attempt to submit the empty form. *)
Definition attempted_Component : Component :=
  state_of (onSubmit fresh_Component).

(** ** Vocabulary of the further properties *)

(** The form group after the inputs have written the six values into its
    controls; validators and dirty flags stay as they were. *)
Definition with_values (n i c e cm rc : jsstring) (g : FormGroup.t)
  : FormGroup.t :=
  {| FormGroup.name := FormControl.setValue n (FormGroup.name g);
     FormGroup.institution := FormControl.setValue i (FormGroup.institution g);
     FormGroup.country := FormControl.setValue c (FormGroup.country g);
     FormGroup.email := FormControl.setValue e (FormGroup.email g);
     FormGroup.comments := FormControl.setValue cm (FormGroup.comments g);
     FormGroup.recaptcha := FormControl.setValue rc (FormGroup.recaptcha g) |}.

(** The form as the class constructs it, holding the given values. *)
Definition typed_arf (fv : FormValidatorT) (n i c e cm rc : jsstring)
  : FormGroup.t :=
  with_values n i c e cm rc (new_arf fv).

(** A value that is not empty, is at most [max] code units long and matches
    the regular expression. *)
Definition acceptable (max : nat) (test : jsstring -> bool) (s : jsstring)
  : Prop :=
  s <> [] /\ List.length s <= max /\ test s = true.

(** Two components hold the same form and the same captcha data. *)
Definition same_submission_inputs (a b : Component) : Prop :=
  arf a = arf b
  /\ captchaSiteKey a = captchaSiteKey b
  /\ captchaResponse a = captchaResponse b.

(** Two components differ at most in [hasSubmitAttempt], [isLoading] and
    [serverErrorMessage]. *)
Definition same_form_and_captcha (a b : Component) : Prop :=
  arf a = arf b
  /\ captchaSiteKey a = captchaSiteKey b
  /\ captchaResponse a = captchaResponse b
  /\ isCaptchaSuccessful a = isCaptchaSuccessful b
  /\ size a = size b
  /\ lang a = lang b.

(** A string neither begins nor ends with white space. *)
Definition no_surrounding_white_space (s : jsstring) : Prop :=
  (forall u t, s = u :: t -> is_white_space u = false)
  /\ (forall t u, s = t ++ [u] -> is_white_space u = false).

(** Calls of the account service and emitted events in a trace. *)
Definition count_calls (tr : list Effect) : nat :=
  List.length (filter is_createAccountRequest tr).

Definition count_events (tr : list Effect) : nat :=
  List.length (filter is_requestSubmissionEvent tr).

(** The loading flag is set exactly while a call is in flight, at most one
    call is in flight, and every emitted event and every call in flight has
    its own call in the trace. *)
Definition page_accounting (p : Page) : Prop :=
  (isLoading (component p) = true <-> in_flight p <> [])
  /\ List.length (in_flight p) <= 1
  /\ count_events (trace p) + List.length (in_flight p)
     <= count_calls (trace p).

(** The component after the captcha widget has reported an empty token. *)
Definition empty_token_Component : Component :=
  state_of (handleCaptchaSuccess (js "") (filled_Component env_with_captcha)).

(** The filled form with comments that are blanks and a line break only. *)
Definition blank_comments_Component : Component :=
  with_arf
    (with_values (js "Ada Lovelace") (js "Analytical Society")
       (js "United Kingdom") (js "ada@example.org") [32; 9; 10; 160]%N (js "")
       (new_arf sample_FormValidator))
    (new_Component sample_FormValidator env_without_captcha).

(** * Properties *)

(** ** Trimming *)

Lemma trimStart_split (s : jsstring) :
  exists l, s = l ++ trimStart s /\ forallb is_white_space l = true.
Proof.
  induction s as [|u t IH]; simpl.
  - exists []. split; reflexivity.
  - destruct (is_white_space u) eqn:Hu.
    + destruct IH as [l [Heq Hl]].
      exists (u :: l). simpl. rewrite Hu, Hl. split; [now f_equal | reflexivity].
    + exists []. split; reflexivity.
Qed.

Lemma trimStart_head (s : jsstring) u t :
  trimStart s = u :: t -> is_white_space u = false.
Proof.
  induction s as [|v r IH]; simpl; [discriminate|].
  destruct (is_white_space v) eqn:Hv; [exact IH|].
  intros H. injection H as -> _. exact Hv.
Qed.

Lemma trimStart_keeps_last (l : jsstring) u :
  is_white_space u = false -> trimStart (l ++ [u]) = trimStart l ++ [u].
Proof.
  intros Hu. induction l as [|v r IH]; simpl.
  - now rewrite Hu.
  - destruct (is_white_space v); [exact IH | reflexivity].
Qed.

Lemma trimEnd_split (s : jsstring) :
  exists r, s = trimEnd s ++ r /\ forallb is_white_space r = true.
Proof.
  unfold trimEnd.
  destruct (trimStart_split (rev s)) as [l [Heq Hl]].
  exists (rev l). split.
  - rewrite <- rev_app_distr, <- Heq. now rewrite rev_involutive.
  - rewrite forallb_forall in *. intros x Hx. apply Hl. now apply in_rev.
Qed.

(** [trim] cuts a run of white space off each end and nothing else. *)
Lemma trim_split (s : jsstring) :
  exists l r, s = l ++ trim s ++ r
              /\ forallb is_white_space l = true
              /\ forallb is_white_space r = true.
Proof.
  unfold trim.
  destruct (trimStart_split s) as [l [Hl Hlw]].
  destruct (trimEnd_split (trimStart s)) as [r [Hr Hrw]].
  exists l, r. repeat split; try assumption.
  now rewrite <- Hr.
Qed.

(** What [trim] returns starts with a code unit that is not white space. *)
Lemma trim_head (s : jsstring) u t :
  trim s = u :: t -> is_white_space u = false.
Proof.
  unfold trim, trimEnd.
  destruct (trimStart s) as [|v r] eqn:Hs; simpl; [discriminate|].
  pose proof (trimStart_head s v r Hs) as Hv.
  rewrite trimStart_keeps_last by exact Hv.
  rewrite rev_app_distr. simpl. intros H. injection H as <- _. exact Hv.
Qed.

(** What [trim] returns ends with a code unit that is not white space. *)
Lemma trim_last (s : jsstring) t u :
  trim s = t ++ [u] -> is_white_space u = false.
Proof.
  unfold trim, trimEnd. intros H.
  apply (f_equal (@rev code_unit)) in H.
  rewrite rev_involutive, rev_app_distr in H. simpl in H.
  exact (trimStart_head _ _ _ H).
Qed.

(** ** The guard of [onSubmit] *)

Lemma captcha_satisfied_guard (c : Component) :
  captcha_satisfied c <->
  truthy (captchaSiteKey c) && negb (truthy_opt (captchaResponse c)) = false.
Proof.
  unfold captcha_satisfied. split.
  - intros [Hk | [token [Hr Ht]]].
    + now rewrite Hk.
    + rewrite Hr. simpl. destruct token; [contradiction|].
      apply andb_false_r.
  - intros H. destruct (captchaSiteKey c) as [|k ks]; [now left|].
    right. destruct (captchaResponse c) as [[|u t]|]; simpl in H;
      try discriminate.
    exists (u :: t). split; [reflexivity | discriminate].
Qed.

(** The guard lets exactly the valid submissions through. *)
Lemma valid_submission_guard (c : Component) :
  valid_submission c <-> submission_blocked c = false.
Proof.
  unfold valid_submission, submission_blocked.
  rewrite captcha_satisfied_guard, orb_false_iff. reflexivity.
Qed.

Lemma blocked_guard (c : Component) :
  FormGroup.invalid (arf c) = true
  \/ (captcha_configured c /\ captchaResponse c = None) ->
  submission_blocked c = true.
Proof.
  unfold submission_blocked, captcha_configured.
  intros [H | [Hk Hr]].
  - now rewrite H.
  - rewrite Hr. destruct (captchaSiteKey c); [contradiction|].
    apply orb_true_r.
Qed.

(** The three assignments that open [onSubmit] leave the guard as it was. *)
Lemma guard_after_prologue (c : Component) b1 b2 s :
  submission_blocked
    (with_serverErrorMessage s (with_isLoading b1 (with_hasSubmitAttempt b2 c)))
  = submission_blocked c.
Proof. reflexivity. Qed.

Ltac step_onSubmit H :=
  unfold onSubmit, bind, assign, get_this, perform, ret,
    result_of, state_of, effects_of;
  rewrite guard_after_prologue, H; simpl.

(** ** Blocked submissions *)

(** C1. In every state in which the form group is invalid, or a captcha site
    key is configured and no captcha response token has been received,
    [onSubmit] makes no call of the account service, emits no
    [requestSubmissionEvent] (it logs nothing and subscribes to nothing), and
    returns with [isLoading] false. *)
Theorem onSubmit_blocked_does_nothing (c : Component) :
  FormGroup.invalid (arf c) = true
  \/ (captcha_configured c /\ captchaResponse c = None) ->
  effects_of (onSubmit c) = []
  /\ result_of (onSubmit c) = None
  /\ isLoading (state_of (onSubmit c)) = false.
Proof.
  intros H. apply blocked_guard in H.
  step_onSubmit H. repeat split.
Qed.

Lemma onSubmit_blocked_does_nothing_witness :
  (FormGroup.invalid (arf fresh_Component) = true
   \/ (captcha_configured fresh_Component
       /\ captchaResponse fresh_Component = None))
  /\ effects_of (onSubmit fresh_Component) = []
  /\ result_of (onSubmit fresh_Component) = None
  /\ isLoading (state_of (onSubmit fresh_Component)) = false.
Proof.
  assert (H : FormGroup.invalid (arf fresh_Component) = true
              \/ (captcha_configured fresh_Component
                  /\ captchaResponse fresh_Component = None))
    by (left; reflexivity).
  split; [exact H | exact (onSubmit_blocked_does_nothing fresh_Component H)].
Defined.

(** A token that is the empty string counts as no token. *)
Lemma onSubmit_blocked_on_empty_token (c : Component) :
  captcha_configured c -> captchaResponse c = Some [] ->
  effects_of (onSubmit c) = [] /\ result_of (onSubmit c) = None.
Proof.
  intros Hk Hr.
  assert (H : submission_blocked c = true).
  { unfold submission_blocked, captcha_configured in *. rewrite Hr.
    destruct (captchaSiteKey c); [now elim Hk | apply orb_true_r]. }
  step_onSubmit H. split; reflexivity.
Qed.

(** ** The outbound request *)

(** C2. For every valid submission, the [instructorInstitution] of the request
    handed to the account service is the trimmed institution, then [", "],
    then the trimmed country. *)
Theorem request_institution_is_combined (c : Component) :
  valid_submission c ->
  exists requestData,
    effects_of (onSubmit c) = [createAccountRequest requestData]
    /\ AccountCreateRequest.instructorInstitution requestData
       = trim (FormControl.value (institution c)) ++ js ", "
         ++ trim (FormControl.value (country c)).
Proof.
  intros H. apply valid_submission_guard in H.
  step_onSubmit H. eexists. split; [reflexivity|].
  destruct (truthy (trim (FormControl.value (comments _)))); reflexivity.
Qed.

Lemma filled_with_token_valid : valid_submission filled_with_token.
Proof.
  split; [reflexivity|]. right. exists (js "token-123").
  split; [reflexivity | vm_compute; discriminate].
Qed.

Lemma filled_without_captcha_valid :
  valid_submission (filled_Component env_without_captcha).
Proof. split; [reflexivity | left; reflexivity]. Qed.

Lemma request_institution_is_combined_witness :
  valid_submission filled_with_token
  /\ exists requestData,
       effects_of (onSubmit filled_with_token)
       = [createAccountRequest requestData]
       /\ AccountCreateRequest.instructorInstitution requestData
          = js "Analytical Society, United Kingdom".
Proof.
  pose proof filled_with_token_valid as H.
  split; [exact H|].
  destruct (request_institution_is_combined filled_with_token H)
    as [rd [He Hi]].
  exists rd. split; [exact He | exact Hi].
Defined.

(** C7. For every valid submission, the request has an [instructorComments]
    property if and only if the trimmed comments are not empty (and then it
    holds them), and its [captchaResponse] is the received token when a site
    key is configured and the empty string otherwise. *)
Theorem request_comments_and_captcha (c : Component) :
  valid_submission c ->
  exists requestData,
    effects_of (onSubmit c) = [createAccountRequest requestData]
    /\ (AccountCreateRequest.instructorComments requestData <> None
        <-> trim (FormControl.value (comments c)) <> [])
    /\ (forall s, AccountCreateRequest.instructorComments requestData = Some s ->
                  s = trim (FormControl.value (comments c)))
    /\ (captcha_configured c ->
        exists token, captchaResponse c = Some token
                      /\ AccountCreateRequest.captchaResponse requestData
                         = Some token)
    /\ (~ captcha_configured c ->
        AccountCreateRequest.captchaResponse requestData = Some (js "")).
Proof.
  intros H. pose proof H as [_ Hcap]. apply valid_submission_guard in H.
  step_onSubmit H. unfold captcha_configured. eexists. split; [reflexivity|].
  destruct (trim (FormControl.value (comments _))) as [|u t] eqn:Ht; simpl.
  all: destruct (captchaSiteKey c) as [|k ks] eqn:Hk; simpl.
  all: repeat split; try congruence; try discriminate; intros.
  all: try (destruct Hcap as [Hn | [token [Hr _]]];
            [congruence | exists token; split; assumption]).
  all: try (exfalso; match goal with Hn : ~ _ |- _ => apply Hn end;
            discriminate).
Qed.

Lemma request_comments_and_captcha_witness :
  valid_submission filled_with_token
  /\ exists requestData,
       effects_of (onSubmit filled_with_token)
       = [createAccountRequest requestData]
       /\ AccountCreateRequest.instructorComments requestData
          = Some (js "Please hurry")
       /\ AccountCreateRequest.captchaResponse requestData
          = Some (js "token-123").
Proof.
  pose proof filled_with_token_valid as H.
  split; [exact H|].
  destruct (request_comments_and_captcha filled_with_token H)
    as [rd [He [Hiff [Hval [Hconf _]]]]].
  exists rd. split; [exact He|]. split.
  - destruct (AccountCreateRequest.instructorComments rd) as [s|] eqn:Hc.
    + rewrite (Hval s eq_refl). reflexivity.
    + exfalso. apply (proj2 Hiff); [vm_compute; discriminate | reflexivity].
  - destruct Hconf as [token [Hr Hq]]; [vm_compute; discriminate|].
    rewrite Hq, <- Hr. reflexivity.
Defined.

(** ** The answer of the backend *)

(** C3. For every valid submission whose backend call succeeds, the component
    emits exactly one [requestSubmissionEvent]; its fields [name],
    [institution], [country], [email] and [comments] are the values the form
    had at submission, trimmed, with institution and country kept apart. The
    state [later] is the one the component is in when the answer arrives. *)
Theorem success_emits_trimmed_form (c : Component) :
  valid_submission c ->
  exists requestData subscriber,
    result_of (onSubmit c) = Some subscriber
    /\ effects_of (onSubmit c) = [createAccountRequest requestData]
    /\ forall later : Component,
         effects_of (respond subscriber success later)
         = [requestSubmissionEvent_emit (trimmed_form c)].
Proof.
  intros H. apply valid_submission_guard in H.
  step_onSubmit H. eexists. eexists. split; [reflexivity|].
  split; [reflexivity|]. intros later. reflexivity.
Qed.

Lemma success_emits_trimmed_form_witness :
  valid_submission filled_with_token
  /\ exists subscriber,
       result_of (onSubmit filled_with_token) = Some subscriber
       /\ effects_of (respond subscriber success
                        (state_of (onSubmit filled_with_token)))
          = [requestSubmissionEvent_emit
               {| InstructorRequestFormModel.name := js "Ada Lovelace";
                  InstructorRequestFormModel.institution :=
                    js "Analytical Society";
                  InstructorRequestFormModel.country := js "United Kingdom";
                  InstructorRequestFormModel.email := js "ada@example.org";
                  InstructorRequestFormModel.comments := js "Please hurry" |}].
Proof.
  pose proof filled_with_token_valid as H.
  split; [exact H|].
  destruct (success_emits_trimmed_form filled_with_token H)
    as [rd [sub [Hres [_ Hemit]]]].
  exists sub. split.
  - exact Hres.
  - rewrite Hemit. reflexivity.
Defined.

(** C4. For every valid submission whose backend call fails with an error
    response, [serverErrorMessage] becomes the message string of that
    response, unchanged, and no [requestSubmissionEvent] is emitted (nothing
    at all is sent out). *)
Theorem failure_shows_server_message (c : Component)
  (resp : ErrorMessageOutput.t) :
  valid_submission c ->
  exists subscriber,
    result_of (onSubmit c) = Some subscriber
    /\ filter is_requestSubmissionEvent (effects_of (onSubmit c)) = []
    /\ forall later : Component,
         serverErrorMessage (state_of (respond subscriber (failure resp) later))
         = MessageOutput.message (ErrorMessageOutput.error resp)
         /\ effects_of (respond subscriber (failure resp) later) = [].
Proof.
  intros H. apply valid_submission_guard in H.
  step_onSubmit H. eexists. split; [reflexivity|]. split; [reflexivity|].
  intros later. split; reflexivity.
Qed.

Lemma failure_shows_server_message_witness :
  valid_submission filled_with_token
  /\ exists subscriber,
       result_of (onSubmit filled_with_token) = Some subscriber
       /\ serverErrorMessage
            (state_of (respond subscriber (failure sample_error)
                         (state_of (onSubmit filled_with_token))))
          = js "Invalid email address."
       /\ effects_of (respond subscriber (failure sample_error)
                        (state_of (onSubmit filled_with_token))) = [].
Proof.
  pose proof filled_with_token_valid as H.
  split; [exact H|].
  destruct (failure_shows_server_message filled_with_token sample_error H)
    as [sub [Hres [_ Hlater]]].
  exists sub. split; [exact Hres|].
  exact (Hlater (state_of (onSubmit filled_with_token))).
Defined.

(** ** Cancelling *)

Lemma no_control_dirty (g : FormGroup.t) :
  (forall f, In f (FormGroup.controls g) -> FormControl.dirty f = false) ->
  existsb FormControl.dirty (FormGroup.controls g) = false.
Proof.
  intros H. destruct (existsb _ _) eqn:E; [|reflexivity].
  apply existsb_exists in E. destruct E as [f [Hin Hd]].
  rewrite (H f Hin) in Hd. discriminate.
Qed.

Lemma some_control_dirty (g : FormGroup.t) :
  (exists f, In f (FormGroup.controls g) /\ FormControl.dirty f = true) ->
  existsb FormControl.dirty (FormGroup.controls g) = true.
Proof. intros H. apply existsb_exists. exact H. Qed.

Lemma onCancel_keeps_state (confirm : jsstring -> bool) (c : Component) :
  state_of (onCancel confirm c) = c.
Proof.
  unfold onCancel, bind, get_this, perform, ret, state_of.
  destruct (existsb _ _); [destruct (confirm cancel_question)|]; reflexivity.
Qed.

(** C5. [onCancel] navigates to the home route ['/web/front/home'] at once,
    without a dialog, when no control of the form is dirty. When some control
    is dirty it opens the dialog and then navigates to that same route if and
    only if the user confirms; otherwise it navigates nowhere. The component
    state is left as it was. *)
Theorem onCancel_navigates_home (confirm : jsstring -> bool) (c : Component) :
  ((forall f, In f (FormGroup.controls (arf c)) ->
              FormControl.dirty f = false) ->
   effects_of (onCancel confirm c) = [router_navigate home_route])
  /\ ((exists f, In f (FormGroup.controls (arf c))
                 /\ FormControl.dirty f = true) ->
      effects_of (onCancel confirm c)
      = confirm_prompt cancel_question
        :: (if confirm cancel_question then [router_navigate home_route]
            else [])
      /\ (In (router_navigate home_route) (effects_of (onCancel confirm c))
          <-> confirm cancel_question = true)
      /\ (confirm cancel_question = false ->
          filter is_navigation (effects_of (onCancel confirm c)) = []))
  /\ state_of (onCancel confirm c) = c.
Proof.
  unfold onCancel, bind, get_this, perform, ret, effects_of, state_of.
  destruct (existsb FormControl.dirty (FormGroup.controls (arf c))) eqn:E.
  - split; [|split].
    + intros H. apply no_control_dirty in H. congruence.
    + intros _. destruct (confirm cancel_question); simpl.
      * repeat split; try discriminate. intros _. right. left. reflexivity.
      * repeat split; try discriminate.
        intros [F | []]. discriminate F.
    + destruct (confirm cancel_question); reflexivity.
  - split; [|split].
    + intros _. reflexivity.
    + intros H. apply some_control_dirty in H. congruence.
    + reflexivity.
Qed.

Lemma onCancel_navigates_home_witness :
  (exists f, In f (FormGroup.controls (arf filled_with_token))
             /\ FormControl.dirty f = true)
  /\ effects_of (onCancel never_confirm filled_with_token)
     = [confirm_prompt cancel_question]
  /\ effects_of (onCancel always_confirm filled_with_token)
     = [confirm_prompt cancel_question; router_navigate home_route]
  /\ (forall f, In f (FormGroup.controls (arf fresh_Component)) ->
                FormControl.dirty f = false)
  /\ effects_of (onCancel never_confirm fresh_Component)
     = [router_navigate home_route].
Proof.
  assert (Hd : exists f, In f (FormGroup.controls (arf filled_with_token))
                         /\ FormControl.dirty f = true).
  { exists (name filled_with_token). split; [left|]; reflexivity. }
  assert (Hc : forall f, In f (FormGroup.controls (arf fresh_Component)) ->
                         FormControl.dirty f = false).
  { intros f Hin. simpl in Hin.
    repeat (destruct Hin as [<- | Hin]; [reflexivity|]). destruct Hin. }
  split; [exact Hd|].
  split; [exact (proj1 (proj1 (proj2
            (onCancel_navigates_home never_confirm filled_with_token)) Hd))|].
  split; [exact (proj1 (proj1 (proj2
            (onCancel_navigates_home always_confirm filled_with_token)) Hd))|].
  split; [exact Hc|].
  exact (proj1 (onCancel_navigates_home never_confirm fresh_Component) Hc).
Defined.

(** ** The submit button *)

(** [canSubmit] looks at the loading flag and at nothing else. *)
Lemma canSubmit_iff_not_loading (c : Component) :
  canSubmit c = true <-> isLoading c = false.
Proof. unfold canSubmit. destruct (isLoading c); simpl; split; congruence. Qed.

(** C6, as stated, fails: the freshly constructed component has an invalid
    form (every required field is empty) and no captcha token although a site
    key is configured, and yet [canSubmit] is true. *)
Lemma canSubmit_true_on_invalid_form :
  FormGroup.invalid (arf fresh_Component) = true
  /\ captcha_configured fresh_Component
  /\ captchaResponse fresh_Component = None
  /\ canSubmit fresh_Component = true.
Proof.
  repeat split. vm_compute. discriminate.
Qed.

(** C6, amended. In every state in which validation fails or the captcha
    token is missing, submission is blocked without an error being raised,
    by the early return of [onSubmit] and not by the disabled state:
    [canSubmit] is the negation of [isLoading] whatever the form holds, and
    [onSubmit] calls nothing, shows no error message and leaves [canSubmit]
    true. *)
Theorem blocked_silently_by_early_return (c : Component) :
  FormGroup.invalid (arf c) = true
  \/ (captcha_configured c /\ captchaResponse c = None) ->
  canSubmit c = negb (isLoading c)
  /\ onSubmit c = (None, state_of (onSubmit c), [])
  /\ serverErrorMessage (state_of (onSubmit c)) = js ""
  /\ canSubmit (state_of (onSubmit c)) = true.
Proof.
  intros H. apply blocked_guard in H.
  split; [reflexivity|].
  step_onSubmit H. repeat split.
Qed.

Lemma blocked_silently_by_early_return_witness :
  (FormGroup.invalid (arf (filled_Component env_with_captcha)) = true
   \/ (captcha_configured (filled_Component env_with_captcha)
       /\ captchaResponse (filled_Component env_with_captcha) = None))
  /\ canSubmit (filled_Component env_with_captcha) = true
  /\ effects_of (onSubmit (filled_Component env_with_captcha)) = []
  /\ canSubmit (state_of (onSubmit (filled_Component env_with_captcha))) = true.
Proof.
  assert (H : FormGroup.invalid (arf (filled_Component env_with_captcha)) = true
              \/ (captcha_configured (filled_Component env_with_captcha)
                  /\ captchaResponse (filled_Component env_with_captcha) = None)).
  { right. split; [vm_compute; discriminate | reflexivity]. }
  split; [exact H|].
  destruct (blocked_silently_by_early_return
              (filled_Component env_with_captcha) H) as [Hc [Hrun [_ Hafter]]].
  split; [rewrite Hc; reflexivity|].
  split; [rewrite Hrun; reflexivity | exact Hafter].
Defined.

(** ** The loading flag *)

Lemma onSubmit_call_implies_loading (c : Component) requestData :
  In (createAccountRequest requestData) (effects_of (onSubmit c)) ->
  isLoading (state_of (onSubmit c)) = true
  /\ exists subscriber, result_of (onSubmit c) = Some subscriber.
Proof.
  destruct (submission_blocked c) eqn:H; step_onSubmit H.
  - intros [].
  - intros _. split; [reflexivity | eexists; reflexivity].
Qed.

Lemma onSubmit_result_cases (c : Component) :
  (result_of (onSubmit c) = None
   /\ isLoading (state_of (onSubmit c)) = false)
  \/ (exists subscriber, result_of (onSubmit c) = Some subscriber
      /\ isLoading (state_of (onSubmit c)) = true).
Proof.
  destruct (submission_blocked c) eqn:H; step_onSubmit H.
  - left. split; reflexivity.
  - right. eexists. split; reflexivity.
Qed.

Lemma respond_resets_loading (s : Subscriber.t) (r : Response) (c : Component) :
  isLoading (state_of (respond s r c)) = false.
Proof. destruct r; reflexivity. Qed.

Lemma remove_nth_singleton {A} (l : list A) i a :
  List.length l <= 1 -> nth_error l i = Some a -> remove_nth i l = [].
Proof.
  destruct l as [|x [|y t]]; simpl; intros Hl Hn.
  - destruct i; discriminate.
  - destruct i as [|j]; [reflexivity|]. destruct j; discriminate.
  - lia.
Qed.

Lemma page_step_inv (p p' : Page) (e : Event) :
  page_inv p -> page_step p e = Some p' -> page_inv p'.
Proof.
  intros [Hflag Hlen] Hstep. destruct e; simpl in Hstep.
  - destruct (canSubmit (component p)) eqn:Hcan; [|discriminate].
    apply canSubmit_iff_not_loading in Hcan. rewrite (Hflag Hcan) in Hstep.
    injection Hstep as <-. unfold run_method, page_inv.
    destruct (onSubmit_result_cases (component p)) as [[Hr Hl] | [s [Hr Hl]]];
      unfold result_of, state_of in *;
      destruct (onSubmit (component p)) as [[a c'] out];
      simpl in *; subst a; simpl; split; auto; congruence.
  - injection Hstep as <-. split; [exact Hflag | exact Hlen].
  - injection Hstep as <-. split; [exact Hflag | exact Hlen].
  - injection Hstep as <-. unfold run_method.
    pose proof (onCancel_keeps_state confirm (component p)) as Hsame.
    unfold state_of in Hsame.
    destruct (onCancel confirm (component p)) as [[a c'] out].
    simpl in *. subst c'. split; [exact Hflag | exact Hlen].
  - destruct (nth_error (in_flight p) i) as [s|] eqn:Hn; [|discriminate].
    injection Hstep as <-. unfold run_method.
    rewrite (remove_nth_singleton _ _ _ Hlen Hn).
    destruct (respond s r (component p)) as [[a c'] out].
    split; simpl; [reflexivity | lia].
Qed.

Lemma page_run_inv (es : list Event) :
  forall p p', page_inv p -> page_run p es = Some p' -> page_inv p'.
Proof.
  induction es as [|e rest IH]; simpl; intros p p' Hinv Hrun.
  - injection Hrun as <-. exact Hinv.
  - destruct (page_step p e) as [q|] eqn:Hstep; [|discriminate].
    exact (IH q p' (page_step_inv p q e Hinv Hstep) Hrun).
Qed.

Lemma reachable_inv fv env (p : Page) : reachable fv env p -> page_inv p.
Proof.
  intros [es Hrun]. refine (page_run_inv es _ _ _ Hrun).
  split; simpl; [reflexivity | lia].
Qed.

(** C8. At most one request is in flight at a time. [isLoading] is true in
    the state in which [onSubmit] makes the outbound call; [canSubmit] is
    false whenever [isLoading] is true; [isLoading] is false again once the
    call has completed, on the success and on the error branch alike; and so,
    on a page whose submit button follows [canSubmit], no reachable state has
    more than one call in flight, and while one is in flight submitting is
    disabled. *)
Theorem single_request_in_flight :
  (forall c requestData,
      In (createAccountRequest requestData) (effects_of (onSubmit c)) ->
      isLoading (state_of (onSubmit c)) = true)
  /\ (forall c, isLoading c = true -> canSubmit c = false)
  /\ (forall s resp c,
         isLoading (state_of (respond s success c)) = false
         /\ isLoading (state_of (respond s (failure resp) c)) = false)
  /\ (forall fv env p,
         reachable fv env p ->
         List.length (in_flight p) <= 1
         /\ (in_flight p <> [] ->
             canSubmit (component p) = false
             /\ page_step p ev_submit = None)).
Proof.
  split; [|split; [|split]].
  - intros c rd H. exact (proj1 (onSubmit_call_implies_loading c rd H)).
  - intros c H. unfold canSubmit. now rewrite H.
  - intros s resp c. split; apply respond_resets_loading.
  - intros fv env p Hreach. destruct (reachable_inv fv env p Hreach) as [Hflag Hlen].
    split; [exact Hlen|]. intros Hne.
    assert (Hl : canSubmit (component p) = false).
    { destruct (canSubmit (component p)) eqn:Hcan; [|reflexivity].
      apply canSubmit_iff_not_loading in Hcan. elim Hne. exact (Hflag Hcan). }
    split; [exact Hl|]. simpl. now rewrite Hl.
Qed.

Lemma submitted_Page_reachable :
  reachable sample_FormValidator env_without_captcha submitted_Page.
Proof.
  exists [ev_input (fill (new_arf sample_FormValidator)); ev_submit].
  reflexivity.
Qed.

Lemma single_request_in_flight_witness :
  reachable sample_FormValidator env_without_captcha submitted_Page
  /\ List.length (in_flight submitted_Page) = 1
  /\ isLoading (component submitted_Page) = true
  /\ canSubmit (component submitted_Page) = false
  /\ page_step submitted_Page ev_submit = None
  /\ (forall s, isLoading (state_of (respond s success
                                       (component submitted_Page))) = false)
  /\ (forall s, isLoading (state_of (respond s (failure sample_error)
                                       (component submitted_Page))) = false).
Proof.
  destruct single_request_in_flight as [Hcall [Hcan [Hdone Hone]]].
  pose proof submitted_Page_reachable as Hr.
  assert (Hne : in_flight submitted_Page <> []) by (vm_compute; discriminate).
  assert (Hload : isLoading (component submitted_Page) = true).
  { refine (Hcall (filled_Component env_without_captcha) _ _).
    left. reflexivity. }
  split; [exact Hr|].
  split; [reflexivity|].
  split; [exact Hload|].
  split; [exact (Hcan (component submitted_Page) Hload)|].
  split; [exact (proj2 (proj2 (Hone _ _ _ Hr) Hne))|].
  split; intros s.
  - exact (proj1 (Hdone s sample_error (component submitted_Page))).
  - exact (proj2 (Hdone s sample_error (component submitted_Page))).
Defined.

(** The gate is the button, not the method: [onSubmit] itself does not look
    at [isLoading], so calling it twice in a row on a valid form makes two
    calls. *)
Lemma onSubmit_does_not_check_isLoading :
  List.length
    (filter is_createAccountRequest
       (effects_of
          (bind onSubmit (fun _ => onSubmit)
             (filled_Component env_without_captcha)))) = 2.
Proof. reflexivity. Qed.

(** ** A new attempt *)

(** C9. Every call of [onSubmit], blocked or not, leaves [hasSubmitAttempt]
    true and [serverErrorMessage] empty in the state in which it returns,
    which is also the state in which the outbound call, if any, was made: an
    error shown earlier is cleared by the new attempt. *)
Theorem onSubmit_marks_attempt_and_clears_error (c : Component) :
  hasSubmitAttempt (state_of (onSubmit c)) = true
  /\ serverErrorMessage (state_of (onSubmit c)) = js "".
Proof.
  destruct (submission_blocked c) eqn:H; step_onSubmit H; split; reflexivity.
Qed.

(** ** Validation classes *)

(** C10. [getFieldValidationClasses] returns the empty string for every field
    while [hasSubmitAttempt] is false. Once it is true, the result is
    ['is-invalid'] for an invalid field, ['is-valid'] for a valid field whose
    value is not empty, and the empty string for a valid field whose value is
    empty. *)
Theorem getFieldValidationClasses_spec (c : Component) (field : FormControl.t) :
  (hasSubmitAttempt c = false -> getFieldValidationClasses c field = js "")
  /\ (hasSubmitAttempt c = true ->
      (FormControl.invalid field = true ->
       getFieldValidationClasses c field = js "is-invalid")
      /\ (FormControl.valid field = true ->
          FormControl.value field <> [] ->
          getFieldValidationClasses c field = js "is-valid")
      /\ (FormControl.valid field = true ->
          FormControl.value field = [] ->
          getFieldValidationClasses c field = js "")).
Proof.
  unfold getFieldValidationClasses, FormControl.valid, not_empty_string.
  split.
  - intros ->. reflexivity.
  - intros ->. repeat split.
    + intros ->. reflexivity.
    + intros Hv Hne. apply negb_true_iff in Hv. rewrite Hv.
      destruct (FormControl.value field); [contradiction | reflexivity].
    + intros Hv He. apply negb_true_iff in Hv. rewrite Hv, He. reflexivity.
Qed.

Lemma getFieldValidationClasses_spec_witness :
  hasSubmitAttempt fresh_Component = false
  /\ getFieldValidationClasses fresh_Component (name fresh_Component) = js ""
  /\ hasSubmitAttempt attempted_Component = true
  /\ FormControl.invalid (name attempted_Component) = true
  /\ getFieldValidationClasses attempted_Component (name attempted_Component)
     = js "is-invalid"
  /\ FormControl.valid (name filled_with_token) = true
  /\ getFieldValidationClasses attempted_Component (name filled_with_token)
     = js "is-valid"
  /\ FormControl.valid (comments attempted_Component) = true
  /\ getFieldValidationClasses attempted_Component
       (comments attempted_Component) = js "".
Proof.
  assert (H0 : hasSubmitAttempt fresh_Component = false) by reflexivity.
  assert (H1 : hasSubmitAttempt attempted_Component = true) by reflexivity.
  assert (Hi : FormControl.invalid (name attempted_Component) = true)
    by reflexivity.
  assert (Hv : FormControl.valid (name filled_with_token) = true)
    by reflexivity.
  assert (Hc : FormControl.valid (comments attempted_Component) = true)
    by reflexivity.
  split; [exact H0|].
  split; [exact (proj1 (getFieldValidationClasses_spec fresh_Component
                          (name fresh_Component)) H0)|].
  split; [exact H1|]. split; [exact Hi|].
  split; [exact (proj1 (proj2 (getFieldValidationClasses_spec
                                 attempted_Component
                                 (name attempted_Component)) H1) Hi)|].
  split; [exact Hv|].
  split.
  - refine (proj1 (proj2 (proj2 (getFieldValidationClasses_spec
                                   attempted_Component
                                   (name filled_with_token)) H1)) Hv _).
    vm_compute. discriminate.
  - split; [exact Hc|].
    exact (proj2 (proj2 (proj2 (getFieldValidationClasses_spec
                                  attempted_Component
                                  (comments attempted_Component)) H1))
             Hc eq_refl).
Defined.

(** * Further properties *)

(** ** More on trimming *)

Lemma trimStart_blank (s : jsstring) :
  forallb is_white_space s = true -> trimStart s = [].
Proof.
  induction s as [|u t IH]; simpl; [reflexivity|].
  intros H. apply andb_true_iff in H. destruct H as [Hu Ht].
  rewrite Hu. exact (IH Ht).
Qed.

(** [trim] returns the empty string exactly on strings of white space. *)
Lemma trim_empty_iff (s : jsstring) :
  trim s = [] <-> forallb is_white_space s = true.
Proof.
  split.
  - intros H. destruct (trim_split s) as [l [r [Hs [Hl Hr]]]].
    rewrite H in Hs. rewrite Hs. simpl. rewrite forallb_app, Hl, Hr.
    reflexivity.
  - intros H. unfold trim. rewrite (trimStart_blank s H). reflexivity.
Qed.


Lemma trim_no_surrounding_white_space (s : jsstring) :
  no_surrounding_white_space (trim s).
Proof.
  split.
  - intros u t H. exact (trim_head s u t H).
  - intros t u H. exact (trim_last s t u H).
Qed.

(** ** The whole request *)

(** What [onSubmit] sends for a submission that passes the guard, field by
    field. *)
Lemma onSubmit_request (c : Component) :
  submission_blocked c = false ->
  exists requestData subscriber,
    effects_of (onSubmit c) = [createAccountRequest requestData]
    /\ result_of (onSubmit c) = Some subscriber
    /\ AccountCreateRequest.instructorName requestData
       = trim (FormControl.value (name c))
    /\ AccountCreateRequest.instructorEmail requestData
       = trim (FormControl.value (email c))
    /\ AccountCreateRequest.instructorInstitution requestData
       = trim (FormControl.value (institution c)) ++ js ", "
         ++ trim (FormControl.value (country c))
    /\ AccountCreateRequest.instructorComments requestData
       = (if truthy (trim (FormControl.value (comments c)))
          then Some (trim (FormControl.value (comments c))) else None)
    /\ Subscriber.comments subscriber = trim (FormControl.value (comments c)).
Proof.
  intros H. step_onSubmit H. eexists. eexists.
  split; [reflexivity|]. split; [reflexivity|].
  destruct (truthy (trim (FormControl.value (comments _)))); repeat split.
Qed.

(** X1. For every valid submission the request carries the trimmed name as
    [instructorName] and the trimmed email as [instructorEmail]; neither
    begins or ends with white space. *)
Theorem request_name_and_email_are_trimmed (c : Component) :
  valid_submission c ->
  exists requestData,
    effects_of (onSubmit c) = [createAccountRequest requestData]
    /\ AccountCreateRequest.instructorName requestData
       = trim (FormControl.value (name c))
    /\ AccountCreateRequest.instructorEmail requestData
       = trim (FormControl.value (email c))
    /\ no_surrounding_white_space
         (AccountCreateRequest.instructorName requestData)
    /\ no_surrounding_white_space
         (AccountCreateRequest.instructorEmail requestData).
Proof.
  intros H. apply valid_submission_guard in H.
  destruct (onSubmit_request c H) as [rd [s [He [_ [Hn [Hm _]]]]]].
  exists rd. rewrite Hn, Hm.
  split; [exact He|]. split; [reflexivity|]. split; [reflexivity|].
  split; apply trim_no_surrounding_white_space.
Qed.

Lemma request_name_and_email_are_trimmed_witness :
  valid_submission filled_with_token
  /\ exists requestData,
       effects_of (onSubmit filled_with_token)
       = [createAccountRequest requestData]
       /\ AccountCreateRequest.instructorName requestData = js "Ada Lovelace"
       /\ AccountCreateRequest.instructorEmail requestData
          = js "ada@example.org".
Proof.
  pose proof filled_with_token_valid as H.
  split; [exact H|].
  destruct (request_name_and_email_are_trimmed filled_with_token H)
    as [rd [He [Hn [Hm _]]]].
  exists rd. split; [exact He|]. split; [exact Hn | exact Hm].
Defined.

(** X2. Comments that consist of white space only are sent as no comments at
    all: the request of a valid submission has no [instructorComments], and
    the event emitted on success carries the empty string as comments. *)
Theorem blank_comments_are_dropped (c : Component) :
  valid_submission c ->
  forallb is_white_space (FormControl.value (comments c)) = true ->
  exists requestData subscriber,
    effects_of (onSubmit c) = [createAccountRequest requestData]
    /\ result_of (onSubmit c) = Some subscriber
    /\ AccountCreateRequest.instructorComments requestData = None
    /\ forall later : Component,
         exists ev,
           effects_of (respond subscriber success later)
           = [requestSubmissionEvent_emit ev]
           /\ InstructorRequestFormModel.comments ev = js "".
Proof.
  intros H Hblank. apply valid_submission_guard in H.
  apply trim_empty_iff in Hblank.
  destruct (onSubmit_request c H) as [rd [s [He [Hr [_ [_ [_ [Hc Hs]]]]]]]].
  exists rd, s. rewrite Hblank in Hc, Hs.
  split; [exact He|]. split; [exact Hr|]. split; [exact Hc|].
  intros later. eexists. split; [reflexivity|]. exact Hs.
Qed.

Lemma blank_comments_are_dropped_witness :
  valid_submission blank_comments_Component
  /\ forallb is_white_space
       (FormControl.value (comments blank_comments_Component)) = true
  /\ exists requestData,
       effects_of (onSubmit blank_comments_Component)
       = [createAccountRequest requestData]
       /\ AccountCreateRequest.instructorComments requestData = None.
Proof.
  assert (H : valid_submission blank_comments_Component)
    by (split; [reflexivity | left; reflexivity]).
  assert (Hb : forallb is_white_space
                 (FormControl.value (comments blank_comments_Component)) = true)
    by reflexivity.
  split; [exact H|]. split; [exact Hb|].
  destruct (blank_comments_are_dropped blank_comments_Component H Hb)
    as [rd [s [He [_ [Hc _]]]]].
  exists rd. split; [exact He | exact Hc].
Defined.

(** ** What [onSubmit] reads and what it leaves alone *)

Lemma same_inputs_same_guard (a b : Component) :
  same_submission_inputs a b -> submission_blocked a = submission_blocked b.
Proof.
  intros [Hf [Hk Hr]]. unfold submission_blocked. now rewrite Hf, Hk, Hr.
Qed.

Lemma onSubmit_same_inputs (a b : Component) :
  same_submission_inputs a b ->
  result_of (onSubmit a) = result_of (onSubmit b)
  /\ effects_of (onSubmit a) = effects_of (onSubmit b).
Proof.
  intros Hs. pose proof (same_inputs_same_guard a b Hs) as Hg.
  destruct Hs as [Hf [Hk Hr]].
  unfold onSubmit, bind, assign, get_this, perform, ret, result_of, effects_of.
  rewrite !guard_after_prologue, <- Hg.
  destruct (submission_blocked a); simpl; [split; reflexivity|].
  unfold name, email, comments, country, institution. simpl.
  rewrite Hf, Hk, Hr. split; reflexivity.
Qed.

Lemma onSubmit_frame (c : Component) :
  same_form_and_captcha (state_of (onSubmit c)) c.
Proof.
  destruct (submission_blocked c) eqn:H; step_onSubmit H;
    repeat split; reflexivity.
Qed.

Lemma respond_frame (s : Subscriber.t) (r : Response) (c : Component) :
  same_form_and_captcha (state_of (respond s r c)) c
  /\ hasSubmitAttempt (state_of (respond s r c)) = hasSubmitAttempt c.
Proof. destruct r; repeat split; reflexivity. Qed.

Lemma onSubmit_starts_clean (c : Component) :
  serverErrorMessage (state_of (onSubmit c)) = js "".
Proof.
  destruct (submission_blocked c) eqn:H; step_onSubmit H; reflexivity.
Qed.

(** X3. What [onSubmit] returns and sends out depends on the form, the
    captcha site key and the captcha token only: two components that agree on
    these behave alike, whatever [isCaptchaSuccessful], [hasSubmitAttempt],
    [isLoading] and [serverErrorMessage] hold. *)
Theorem onSubmit_reads_form_and_captcha_only (a b : Component) :
  same_submission_inputs a b ->
  result_of (onSubmit a) = result_of (onSubmit b)
  /\ effects_of (onSubmit a) = effects_of (onSubmit b).
Proof.
  intros [Hf [Hk Hr]].
  assert (Hg : submission_blocked a = submission_blocked b)
    by (unfold submission_blocked; now rewrite Hf, Hk, Hr).
  unfold onSubmit, bind, assign, get_this, perform, ret, result_of, effects_of.
  rewrite !guard_after_prologue, <- Hg.
  destruct (submission_blocked a); simpl; [split; reflexivity|].
  unfold name, email, comments, country, institution. simpl.
  rewrite Hf, Hk, Hr. split; reflexivity.
Qed.

Lemma onSubmit_reads_form_and_captcha_only_witness :
  same_submission_inputs
    (with_captcha false (Some (js "token-123"))
       (with_isLoading true
          (with_serverErrorMessage (js "Invalid email address.")
             filled_with_token)))
    filled_with_token
  /\ effects_of
       (onSubmit
          (with_captcha false (Some (js "token-123"))
             (with_isLoading true
                (with_serverErrorMessage (js "Invalid email address.")
                   filled_with_token))))
     = effects_of (onSubmit filled_with_token).
Proof.
  assert (H : same_submission_inputs
                (with_captcha false (Some (js "token-123"))
                   (with_isLoading true
                      (with_serverErrorMessage (js "Invalid email address.")
                         filled_with_token)))
                filled_with_token)
    by (repeat split; reflexivity).
  split; [exact H|].
  exact (proj2 (onSubmit_reads_form_and_captcha_only _ _ H)).
Defined.

(** X4. Neither [onSubmit] nor the handling of the backend's answer touches
    the form or the captcha data: values, validators, dirty flags, site key,
    token, [isCaptchaSuccessful], [size] and [lang] are as before. The form
    is not cleared by a submission, and the answer keeps
    [hasSubmitAttempt]. *)
Theorem submission_keeps_form_and_captcha (c : Component)
  (s : Subscriber.t) (r : Response) :
  same_form_and_captcha (state_of (onSubmit c)) c
  /\ same_form_and_captcha (state_of (respond s r c)) c
  /\ hasSubmitAttempt (state_of (respond s r c)) = hasSubmitAttempt c.
Proof.
  split; [apply onSubmit_frame | apply respond_frame].
Qed.

(** X5. After the answer to a valid submission, success or error, the
    component can submit again, and submitting the unchanged form again sends
    the very same request once more; the new attempt starts with an empty
    [serverErrorMessage]. *)
Theorem resubmission_repeats_request (c : Component) (r : Response) :
  valid_submission c ->
  exists requestData subscriber,
    effects_of (onSubmit c) = [createAccountRequest requestData]
    /\ result_of (onSubmit c) = Some subscriber
    /\ canSubmit (state_of (respond subscriber r (state_of (onSubmit c))))
       = true
    /\ effects_of
         (onSubmit (state_of (respond subscriber r (state_of (onSubmit c)))))
       = [createAccountRequest requestData]
    /\ serverErrorMessage
         (state_of
            (onSubmit
               (state_of (respond subscriber r (state_of (onSubmit c))))))
       = js "".
Proof.
  intros H. apply valid_submission_guard in H.
  destruct (onSubmit_request c H) as [rd [s [He [Hr _]]]].
  exists rd, s. split; [exact He|]. split; [exact Hr|].
  split; [|split].
  - unfold canSubmit. now rewrite respond_resets_loading.
  - rewrite <- He. apply onSubmit_same_inputs.
    destruct (respond_frame s r (state_of (onSubmit c)))
      as [[Hf [Hk [Ht _]]] _].
    destruct (onSubmit_frame c) as [Hf' [Hk' [Ht' _]]].
    repeat split; congruence.
  - apply onSubmit_starts_clean.
Qed.

Lemma resubmission_repeats_request_witness :
  valid_submission filled_with_token
  /\ exists requestData subscriber,
       effects_of (onSubmit filled_with_token)
       = [createAccountRequest requestData]
       /\ result_of (onSubmit filled_with_token) = Some subscriber
       /\ effects_of
            (onSubmit
               (state_of
                  (respond subscriber (failure sample_error)
                     (state_of (onSubmit filled_with_token)))))
          = [createAccountRequest requestData].
Proof.
  pose proof filled_with_token_valid as H.
  split; [exact H|].
  destruct (resubmission_repeats_request filled_with_token
              (failure sample_error) H) as [rd [s [He [Hr [_ [Hagain _]]]]]].
  exists rd, s. split; [exact He|]. split; [exact Hr | exact Hagain].
Defined.

(** ** The captcha token *)

(** X6. A token reported through [handleCaptchaSuccess] replaces whatever
    token was stored. If it is not empty and the form is valid, the next
    [onSubmit] makes the call; the request carries that token when a site key
    is configured and the empty string when none is. *)
Theorem captcha_token_reaches_request (c : Component) (token : jsstring) :
  FormGroup.invalid (arf c) = false ->
  token <> [] ->
  exists requestData,
    effects_of (onSubmit (state_of (handleCaptchaSuccess token c)))
    = [createAccountRequest requestData]
    /\ (captcha_configured c ->
        AccountCreateRequest.captchaResponse requestData = Some token)
    /\ (~ captcha_configured c ->
        AccountCreateRequest.captchaResponse requestData = Some (js "")).
Proof.
  intros Hv Ht.
  set (c' := state_of (handleCaptchaSuccess token c)).
  assert (Hf : arf c' = arf c) by reflexivity.
  assert (Hk : captchaSiteKey c' = captchaSiteKey c) by reflexivity.
  assert (Hr : captchaResponse c' = Some token) by reflexivity.
  clearbody c'.
  assert (H : submission_blocked c' = false).
  { unfold submission_blocked. rewrite Hf, Hv, Hr.
    destruct token; [contradiction|]. simpl. apply andb_false_r. }
  step_onSubmit H. unfold captcha_configured. rewrite Hk, Hr. eexists.
  split; [reflexivity|].
  destruct (captchaSiteKey c) eqn:Hs;
    destruct (truthy (trim (FormControl.value (comments _))));
    simpl; split; intros Hc; try reflexivity;
    try (now elim Hc); exfalso; apply Hc; discriminate.
Qed.

Lemma captcha_token_reaches_request_witness :
  FormGroup.invalid (arf (filled_Component env_with_captcha)) = false
  /\ js "token-456" <> []
  /\ exists requestData,
       effects_of
         (onSubmit
            (state_of (handleCaptchaSuccess (js "token-456")
                         (filled_Component env_with_captcha))))
       = [createAccountRequest requestData]
       /\ AccountCreateRequest.captchaResponse requestData
          = Some (js "token-456").
Proof.
  assert (Hv : FormGroup.invalid (arf (filled_Component env_with_captcha))
               = false) by reflexivity.
  assert (Ht : js "token-456" <> []) by (vm_compute; discriminate).
  split; [exact Hv|]. split; [exact Ht|].
  destruct (captcha_token_reaches_request
              (filled_Component env_with_captcha) (js "token-456") Hv Ht)
    as [rd [He [Hc _]]].
  exists rd. split; [exact He|]. apply Hc. vm_compute. discriminate.
Defined.

(** X7. The guard of [onSubmit] reads the token, not the flag: after
    [handleCaptchaSuccess] with the empty string, [isCaptchaSuccessful] is
    true, and with a site key configured [onSubmit] still makes no call. *)
Theorem empty_token_sets_flag_but_blocks (c : Component) :
  captcha_configured c ->
  isCaptchaSuccessful (state_of (handleCaptchaSuccess (js "") c)) = true
  /\ effects_of (onSubmit (state_of (handleCaptchaSuccess (js "") c))) = []
  /\ result_of (onSubmit (state_of (handleCaptchaSuccess (js "") c))) = None.
Proof.
  intros Hk. split; [reflexivity|].
  set (c' := state_of (handleCaptchaSuccess (js "") c)).
  assert (Hs : captchaSiteKey c' = captchaSiteKey c) by reflexivity.
  assert (Hr : captchaResponse c' = Some []) by reflexivity.
  clearbody c'.
  assert (H : submission_blocked c' = true).
  { unfold submission_blocked, captcha_configured in *. rewrite Hs, Hr.
    destruct (captchaSiteKey c); [now elim Hk | apply orb_true_r]. }
  step_onSubmit H. split; reflexivity.
Qed.

Lemma empty_token_sets_flag_but_blocks_witness :
  captcha_configured (filled_Component env_with_captcha)
  /\ FormGroup.invalid (arf empty_token_Component) = false
  /\ isCaptchaSuccessful empty_token_Component = true
  /\ effects_of (onSubmit empty_token_Component) = [].
Proof.
  assert (Hk : captcha_configured (filled_Component env_with_captcha))
    by (vm_compute; discriminate).
  split; [exact Hk|]. split; [reflexivity|].
  destruct (empty_token_sets_flag_but_blocks
              (filled_Component env_with_captcha) Hk) as [Hf [He _]].
  split; [exact Hf | exact He].
Defined.

(** ** The validators of the form *)

Lemma control_required_maxLength_pattern s m t d :
  FormControl.invalid
    (FormControl.mk s [required; maxLength m; pattern t] d) = false
  <-> acceptable m t s.
Proof.
  unfold FormControl.invalid, acceptable. simpl.
  rewrite !orb_false_iff, Nat.ltb_ge. destruct s as [|u r]; simpl.
  - split; [intros [H _]; discriminate | intros [H _]; now elim H].
  - rewrite negb_false_iff. split.
    + intros [_ [Hl [Ht _]]]. repeat split; [discriminate | exact Hl | exact Ht].
    + intros [_ [Hl Ht]]. repeat split; assumption.
Qed.

Lemma control_required_pattern_maxLength s m t d :
  FormControl.invalid
    (FormControl.mk s [required; pattern t; maxLength m] d) = false
  <-> acceptable m t s.
Proof.
  unfold FormControl.invalid, acceptable. simpl.
  rewrite !orb_false_iff, Nat.ltb_ge. destruct s as [|u r]; simpl.
  - split; [intros [H _]; discriminate | intros [H _]; now elim H].
  - rewrite negb_false_iff. split.
    + intros [_ [Ht [Hl _]]]. repeat split; [discriminate | exact Hl | exact Ht].
    + intros [_ [Hl Ht]]. repeat split; assumption.
Qed.


(** X8. The form as the class constructs it is valid exactly when name,
    institution, country and email are each non-empty, within their maximum
    length and matched by their regular expression. Comments and the
    recaptcha control carry no validator: no value of theirs makes the form
    invalid. *)
Theorem constructed_form_valid_iff (fv : FormValidatorT)
  (n i c e cm rc : jsstring) :
  FormGroup.invalid (typed_arf fv n i c e cm rc) = false
  <-> acceptable (STUDENT_NAME_MAX_LENGTH fv) (NAME_REGEX fv) n
      /\ acceptable (INSTITUTION_NAME_MAX_LENGTH fv) (NAME_REGEX fv) i
      /\ acceptable (COUNTRY_NAME_MAX_LENGTH fv) (NAME_REGEX fv) c
      /\ acceptable (EMAIL_MAX_LENGTH fv) (EMAIL_REGEX fv) e.
Proof.
  unfold FormGroup.invalid, typed_arf, with_values, new_arf,
    FormGroup.controls, FormControl.setValue, new_FormControl.
  cbn [existsb FormGroup.name FormGroup.institution FormGroup.country
         FormGroup.email FormGroup.comments FormGroup.recaptcha
         FormControl.validators FormControl.dirty].
  rewrite !orb_false_iff.
  rewrite !control_required_maxLength_pattern,
    control_required_pattern_maxLength.
  split; [tauto|]. intros [Hn [Hi [Hc He]]].
  repeat (split; [assumption|]). repeat split; reflexivity.
Qed.

(** X9. [checkIsFieldRequired] answers true for the name, institution,
    country and email controls of the form and false for comments and
    recaptcha, whatever they hold; and a control for which it answers true is
    invalid while its value is empty. *)
Theorem required_fields_reject_empty (fv : FormValidatorT)
  (n i c e cm rc : jsstring) :
  checkIsFieldRequired (FormGroup.name (typed_arf fv n i c e cm rc)) = true
  /\ checkIsFieldRequired
       (FormGroup.institution (typed_arf fv n i c e cm rc)) = true
  /\ checkIsFieldRequired
       (FormGroup.country (typed_arf fv n i c e cm rc)) = true
  /\ checkIsFieldRequired (FormGroup.email (typed_arf fv n i c e cm rc)) = true
  /\ checkIsFieldRequired
       (FormGroup.comments (typed_arf fv n i c e cm rc)) = false
  /\ checkIsFieldRequired
       (FormGroup.recaptcha (typed_arf fv n i c e cm rc)) = false
  /\ forall field,
       checkIsFieldRequired field = true ->
       FormControl.value field = [] ->
       FormControl.invalid field = true.
Proof.
  repeat (split; [reflexivity|]).
  intros field Hreq Hempty.
  unfold checkIsFieldRequired, FormControl.hasValidator in Hreq.
  apply existsb_exists in Hreq. destruct Hreq as [v [Hin Hv]].
  unfold FormControl.invalid. apply existsb_exists. exists v.
  split; [exact Hin|]. rewrite Hempty.
  destruct v; [reflexivity | discriminate | discriminate].
Qed.

Lemma required_fields_reject_empty_witness :
  checkIsFieldRequired (name fresh_Component) = true
  /\ FormControl.value (name fresh_Component) = []
  /\ FormControl.invalid (name fresh_Component) = true.
Proof.
  assert (Hr : checkIsFieldRequired (name fresh_Component) = true)
    by reflexivity.
  assert (He : FormControl.value (name fresh_Component) = []) by reflexivity.
  split; [exact Hr|]. split; [exact He|].
  destruct (required_fields_reject_empty sample_FormValidator [] [] [] [] [] [])
    as [_ [_ [_ [_ [_ [_ H]]]]]].
  exact (H (name fresh_Component) Hr He).
Defined.



(** ** What the user sees after an attempt *)

Lemma onSubmit_marks_attempt (c : Component) :
  hasSubmitAttempt (state_of (onSubmit c)) = true.
Proof.
  destruct (submission_blocked c) eqn:H; step_onSubmit H; reflexivity.
Qed.

Lemma is_invalid_class_iff (c : Component) (field : FormControl.t) :
  hasSubmitAttempt c = true ->
  (getFieldValidationClasses c field = js "is-invalid"
   <-> FormControl.invalid field = true).
Proof.
  intros Ha. unfold getFieldValidationClasses. rewrite Ha.
  destruct (FormControl.invalid field).
  - split; reflexivity.
  - destruct (not_empty_string (FormControl.value field));
      split; intros H; vm_compute in H; discriminate H.
Qed.

(** X11. After any call of [onSubmit], some control of the form gets the
    class ['is-invalid'] if and only if the form group is invalid. So a
    submission blocked by validation is always shown on a field, and one
    blocked by the captcha alone flags no field. *)
Theorem invalid_form_is_flagged_after_onSubmit (c : Component) :
  (exists field,
      In field (FormGroup.controls (arf c))
      /\ getFieldValidationClasses (state_of (onSubmit c)) field
         = js "is-invalid")
  <-> FormGroup.invalid (arf c) = true.
Proof.
  unfold FormGroup.invalid. rewrite existsb_exists.
  pose proof (onSubmit_marks_attempt c) as Ha.
  split; intros [field [Hin H]]; exists field; (split; [exact Hin|]);
    apply (is_invalid_class_iff _ field Ha); exact H.
Qed.

(** ** Accounting of calls and events on the page *)

Lemma count_calls_app (a b : list Effect) :
  count_calls (a ++ b) = count_calls a + count_calls b.
Proof. unfold count_calls. now rewrite filter_app, length_app. Qed.

Lemma count_events_app (a b : list Effect) :
  count_events (a ++ b) = count_events a + count_events b.
Proof. unfold count_events. now rewrite filter_app, length_app. Qed.

Lemma onSubmit_outcome (c : Component) :
  (result_of (onSubmit c) = None
   /\ effects_of (onSubmit c) = []
   /\ isLoading (state_of (onSubmit c)) = false)
  \/ (exists subscriber requestData,
         result_of (onSubmit c) = Some subscriber
         /\ effects_of (onSubmit c) = [createAccountRequest requestData]
         /\ isLoading (state_of (onSubmit c)) = true).
Proof.
  destruct (submission_blocked c) eqn:H; step_onSubmit H.
  - left. repeat split.
  - right. eexists. eexists. repeat split.
Qed.

Lemma respond_outcome (s : Subscriber.t) (r : Response) (c : Component) :
  count_calls (effects_of (respond s r c)) = 0
  /\ count_events (effects_of (respond s r c)) <= 1
  /\ isLoading (state_of (respond s r c)) = false.
Proof. destruct r; repeat split; simpl; auto. Qed.

Lemma onCancel_outcome (confirm : jsstring -> bool) (c : Component) :
  count_calls (effects_of (onCancel confirm c)) = 0
  /\ count_events (effects_of (onCancel confirm c)) = 0
  /\ state_of (onCancel confirm c) = c.
Proof.
  unfold onCancel, bind, get_this, perform, ret, state_of, effects_of.
  destruct (existsb _ _); [destruct (confirm cancel_question)|];
    repeat split; reflexivity.
Qed.

Lemma singleton_in_flight {A} (l : list A) i a :
  List.length l <= 1 -> nth_error l i = Some a ->
  l = [a] /\ remove_nth i l = [].
Proof.
  destruct l as [|x [|y t]]; simpl; intros Hl Hn.
  - destruct i; discriminate.
  - destruct i as [|j]; [|destruct j; discriminate].
    injection Hn as ->. split; reflexivity.
  - lia.
Qed.

Lemma page_step_accounting (p p' : Page) (e : Event) :
  page_accounting p -> page_step p e = Some p' -> page_accounting p'.
Proof.
  intros [Hflag [Hlen Hcount]] Hstep. destruct e; simpl in Hstep.
  - destruct (canSubmit (component p)) eqn:Hcan; [|discriminate].
    apply canSubmit_iff_not_loading in Hcan.
    assert (Hnone : in_flight p = []).
    { destruct (in_flight p) as [|s l] eqn:Hl; [reflexivity|].
      assert (Ht : isLoading (component p) = true)
        by (apply Hflag; discriminate).
      congruence. }
    rewrite Hnone in *. injection Hstep as <-. unfold run_method, page_accounting.
    destruct (onSubmit_outcome (component p))
      as [[Hr [He Hl]] | [s [rd [Hr [He Hl]]]]];
      unfold result_of, state_of, effects_of in *;
      destruct (onSubmit (component p)) as [[a c'] out];
      simpl in *; subst a out; simpl;
      rewrite ?count_calls_app, ?count_events_app, ?app_nil_r; simpl.
    + change (count_events []) with 0. change (count_calls []) with 0.
      split; [split; [congruence | intros F; now elim F]|]. split; lia.
    + change (count_calls [createAccountRequest rd]) with 1.
      change (count_events [createAccountRequest rd]) with 0.
      split; [split; [discriminate | intros _; exact Hl]|]. split; lia.
  - injection Hstep as <-. unfold run_method, page_accounting. simpl.
    rewrite app_nil_r. repeat split; try assumption; apply Hflag.
  - injection Hstep as <-. unfold run_method, page_accounting. simpl.
    rewrite app_nil_r. repeat split; try assumption; apply Hflag.
  - injection Hstep as <-. unfold run_method, page_accounting.
    destruct (onCancel_outcome confirm (component p)) as [Hc [He Hs]].
    unfold state_of, effects_of in *.
    destruct (onCancel confirm (component p)) as [[a c'] out].
    simpl in *. subst c'. rewrite count_calls_app, count_events_app, Hc, He.
    split; [exact Hflag|]. split; lia.
  - destruct (nth_error (in_flight p) i) as [s|] eqn:Hn; [|discriminate].
    injection Hstep as <-. unfold run_method, page_accounting.
    destruct (singleton_in_flight _ _ _ Hlen Hn) as [Hone Hrem].
    rewrite Hrem. rewrite Hone in Hcount. simpl in Hcount.
    destruct (respond_outcome s r (component p)) as [Hc [He Hl]].
    unfold state_of, effects_of in *.
    destruct (respond s r (component p)) as [[a c'] out].
    simpl in *. rewrite count_calls_app, count_events_app, Hc.
    split; [split; [congruence | intros F; now elim F]|]. split; lia.
Qed.

Lemma page_run_accounting (es : list Event) :
  forall p p', page_accounting p -> page_run p es = Some p' ->
               page_accounting p'.
Proof.
  induction es as [|e rest IH]; simpl; intros p p' Hinv Hrun.
  - injection Hrun as <-. exact Hinv.
  - destruct (page_step p e) as [q|] eqn:Hstep; [|discriminate].
    exact (IH q p' (page_step_accounting p q e Hinv Hstep) Hrun).
Qed.

(** X12. On a page whose submit button follows [canSubmit], in every
    reachable state [isLoading] is true exactly while a call is in flight (the
    flag cannot stay set once the call has been answered), and the events
    emitted so far plus the calls in flight never exceed the calls made: no
    confirmation is emitted without a call of its own. *)
Theorem loading_flag_tracks_the_call (fv : FormValidatorT) (env : EnvironmentT)
  (p : Page) :
  reachable fv env p ->
  (isLoading (component p) = true <-> in_flight p <> [])
  /\ count_events (trace p) + List.length (in_flight p)
     <= count_calls (trace p).
Proof.
  intros [es Hrun].
  assert (H0 : page_accounting (new_Page fv env)).
  { split; [split; [discriminate | intros F; now elim F]|].
    split; simpl; lia. }
  destruct (page_run_accounting es _ _ H0 Hrun) as [Hflag [_ Hcount]].
  split; [exact Hflag | exact Hcount].
Qed.

Lemma loading_flag_tracks_the_call_witness :
  reachable sample_FormValidator env_without_captcha submitted_Page
  /\ isLoading (component submitted_Page) = true
  /\ count_events (trace submitted_Page)
     + List.length (in_flight submitted_Page)
     <= count_calls (trace submitted_Page).
Proof.
  pose proof submitted_Page_reachable as Hr.
  destruct (loading_flag_tracks_the_call _ _ _ Hr) as [Hflag Hcount].
  split; [exact Hr|]. split; [|exact Hcount].
  apply Hflag. vm_compute. discriminate.
Defined.
